(** * hmmer_tables.domtbl: reading HMMER domtbl files

    A shallow embedding of [src/hmmer_tables/domtbl.py] and the properties
    its specification states about it.

    Python values are embedded as follows: [str] as the [string] of its
    UTF-8 bytes, [int] (unbounded) as [Z], a [list] of [str] as
    [list string] indexed with stdpp's lookup, a raised exception as the
    [Err] branch of [result]. The pydantic models become records, each in a
    module of the class's name so that the fields keep the names of the
    source. *)

From Stdlib Require Import ZArith Ascii String.
From stdpp Require Import base option list strings gmap.

Local Open Scope Z_scope.
Local Open Scope string_scope.
Local Open Scope list_scope.

(** ** Exceptions and the error monad *)

(** The exceptions the module can raise. None is raised by a [raise] of the
    module itself: they come from list indexing, from [int], from [open]
    and from [dataclasses.asdict]. [ValueError] carries the literal that
    [int] rejected (the interpreter's message is built from that literal
    alone); the two [OSError] subclasses carry the path. *)
Inductive Exception : Type :=
  | IndexError
  | ValueError (literal : string)
  | TypeError (msg : string)
  | FileNotFoundError (path : string)
  | PermissionError (path : string).

Inductive result (A : Type) : Type :=
  | Ok (a : A)
  | Err (e : Exception).
Arguments Ok {A} a.
Arguments Err {A} e.

#[global] Instance result_ret : MRet result := @Ok.
#[global] Instance result_bind : MBind result := λ A B f m,
  match m with
  | Ok a => f a
  | Err e => Err e
  end.

(** The error classes of the specification (section 7), which names the
    conditions and not the Python classes. *)
Inductive ErrorKind : Type :=
  | FileAccessError
  | MalformedRow
  | InvalidNumericField.

(** Section 7, in its words: [FileAccessError] is "path
    missing/unreadable/permission denied", [MalformedRow] is the
    "index-out-of-range condition" of section 4.1, [InvalidNumericField] is
    "a field expected to be an integer is not parseable as one". A
    [TypeError] is none of the three. *)
Definition error_kind (e : Exception) : option ErrorKind :=
  match e with
  | IndexError => Some MalformedRow
  | ValueError _ => Some InvalidNumericField
  | FileNotFoundError _ | PermissionError _ => Some FileAccessError
  | TypeError _ => None
  end.

(** ** Builtins: [int], list indexing, [str.join] *)

(** A [str] is given by the bytes of its UTF-8 encoding, so that a string
    literal of this file denotes the [str] it shows. *)

(** ASCII white space as the methods of [str] see it, [split] among them:
    TAB, LF, VT, FF, CR, FS, GS, RS, US and the space. *)
Definition is_space (c : ascii) : bool :=
  let n := nat_of_ascii c in
  ((9 <=? n) && (n <=? 13) || (28 <=? n) && (n <=? 32))%nat.

(** White space of the C locale, the one [int] skips around an ASCII
    literal: TAB, LF, VT, FF, CR and the space, but not FS, GS, RS, US. *)
Definition is_c_space (c : ascii) : bool :=
  let n := nat_of_ascii c in
  ((9 <=? n) && (n <=? 13) || (n =? 32))%nat.

Definition is_digit (c : ascii) : bool :=
  let n := nat_of_ascii c in ((48 <=? n) && (n <=? 57))%nat.

Definition digit_val (c : ascii) : Z := Z.of_nat (nat_of_ascii c) - 48.

Definition is_underscore (c : ascii) : bool := (nat_of_ascii c =? 95)%nat.

(** The digit part of an [int] literal: decimal digits, where single
    underscores may stand between two digits. [prev] tells whether the
    character before was a digit. *)
Fixpoint digits_value (acc : Z) (prev : bool) (cs : list ascii) : option Z :=
  match cs with
  | [] => if prev then Some acc else None
  | c :: cs' =>
      if is_digit c then digits_value (acc * 10 + digit_val c) true cs'
      else if is_underscore c && prev then digits_value acc false cs'
      else None
  end.

Fixpoint lstrip (cs : list ascii) : list ascii :=
  match cs with
  | c :: cs' => if is_c_space c then lstrip cs' else cs
  | [] => []
  end.

Definition strip (cs : list ascii) : list ascii :=
  rev (lstrip (rev (lstrip cs))).

(** What [int] does with an ASCII literal, base 10: the white space of the C
    locale around it is dropped, one sign is allowed, then the digit
    part. *)
Definition ascii_int (cs : list ascii) : option Z :=
  match strip cs with
  | "+"%char :: cs' => digits_value 0 false cs'
  | "-"%char :: cs' => Z.opp <$> digits_value 0 false cs'
  | cs' => digits_value 0 false cs'
  end.

(** A continuation byte of UTF-8 and its six bits. *)
Definition utf8_cont (b : ascii) : option N :=
  let n := N_of_ascii b in
  if ((128 <=? n) && (n <? 192))%N then Some (n - 128)%N else None.

(** The code points of a [str], from its bytes; [None] for bytes that are
    the encoding of no [str] (a stray or missing continuation byte, an
    overlong form, a surrogate, a value above U+10FFFF). *)
Fixpoint utf8_decode (bs : list ascii) : option (list N) :=
  match bs with
  | [] => Some []
  | b0 :: bs1 =>
      let n0 := N_of_ascii b0 in
      if (n0 <? 0x80)%N then cons n0 <$> utf8_decode bs1
      else if (n0 <? 0xC2)%N then None
      else if (n0 <? 0xE0)%N then
        match bs1 with
        | b1 :: bs2 =>
            c1 ← utf8_cont b1;
            cons ((n0 - 0xC0) * 64 + c1)%N <$> utf8_decode bs2
        | _ => None
        end
      else if (n0 <? 0xF0)%N then
        match bs1 with
        | b1 :: b2 :: bs3 =>
            c1 ← utf8_cont b1;
            c2 ← utf8_cont b2;
            let cp := ((n0 - 0xE0) * 4096 + c1 * 64 + c2)%N in
            if ((cp <? 0x800) || (0xD800 <=? cp) && (cp <? 0xE000))%N then None
            else cons cp <$> utf8_decode bs3
        | _ => None
        end
      else if (n0 <? 0xF5)%N then
        match bs1 with
        | b1 :: b2 :: b3 :: bs4 =>
            c1 ← utf8_cont b1;
            c2 ← utf8_cont b2;
            c3 ← utf8_cont b3;
            let cp := ((n0 - 0xF0) * 262144 + c1 * 4096 + c2 * 64 + c3)%N in
            if ((cp <? 0x10000) || (0x10FFFF <? cp))%N then None
            else cons cp <$> utf8_decode bs4
        | _ => None
        end
      else None
  end.

(** The code points of the digit zero of every decimal digit system (Unicode
    14.0, the tables of CPython 3.11); the digits one to nine follow each. *)
Definition unicode_decimal_zeros : list N :=
  [0x30; 0x660; 0x6F0; 0x7C0; 0x966; 0x9E6; 0xA66; 0xAE6; 0xB66; 0xBE6;
   0xC66; 0xCE6; 0xD66; 0xDE6; 0xE50; 0xED0; 0xF20; 0x1040; 0x1090; 0x17E0;
   0x1810; 0x1946; 0x19D0; 0x1A80; 0x1A90; 0x1B50; 0x1BB0; 0x1C40; 0x1C50;
   0xA620; 0xA8D0; 0xA900; 0xA9D0; 0xA9F0; 0xAA50; 0xABF0; 0xFF10; 0x104A0;
   0x10D30; 0x11066; 0x110F0; 0x11136; 0x111D0; 0x112F0; 0x11450; 0x114D0;
   0x11650; 0x116C0; 0x11730; 0x118E0; 0x11950; 0x11C50; 0x11D50; 0x11DA0;
   0x16A60; 0x16AC0; 0x16B50; 0x1D7CE; 0x1D7D8; 0x1D7E2; 0x1D7EC; 0x1D7F6;
   0x1E140; 0x1E2F0; 0x1E950; 0x1FBF0]%N.

(** The decimal value of a code point, when it is a decimal digit. *)
Definition unicode_decimal (cp : N) : option N :=
  (λ zero, cp - zero)%N
    <$> List.find (λ zero, (zero <=? cp) && (cp <? zero + 10))%N
          unicode_decimal_zeros.

(** The white space outside ASCII (Unicode 14.0). *)
Definition unicode_spaces : list N :=
  [0x85; 0xA0; 0x1680; 0x2000; 0x2001; 0x2002; 0x2003; 0x2004; 0x2005;
   0x2006; 0x2007; 0x2008; 0x2009; 0x200A; 0x2028; 0x2029; 0x202F; 0x205F;
   0x3000]%N.

Definition unicode_isspace (cp : N) : bool :=
  existsb (N.eqb cp) unicode_spaces.

(** What [int] makes of one code point before it reads the literal: an ASCII
    character is kept, white space outside ASCII becomes a space, a decimal
    digit of any script becomes the ASCII digit of its value; any other code
    point makes the literal invalid. *)
Definition to_ascii_char (cp : N) : option ascii :=
  if (cp <? 0x80)%N then Some (ascii_of_N cp)
  else if unicode_isspace cp then Some " "%char
  else (λ d, ascii_of_N (48 + d)) <$> unicode_decimal cp.

Fixpoint to_ascii_literal (cps : list N) : option (list ascii) :=
  match cps with
  | [] => Some []
  | cp :: cps' =>
      c ← to_ascii_char cp;
      cons c <$> to_ascii_literal cps'
  end.

(** [int(s)] for a [str] [s], base 10: the code points are brought to ASCII
    and the ASCII literal is read. [None] stands for the [ValueError]. (The
    interpreter's cap on the number of digits is outside this model.) *)
Definition py_int (s : string) : option Z :=
  cps ← utf8_decode (list_ascii_of_string s);
  cs ← to_ascii_literal cps;
  ascii_int cs.

Definition int (s : string) : result Z :=
  match py_int s with
  | Some z => Ok z
  | None => Err (ValueError s)
  end.

(** [x[i]] for a non-negative constant [i]. *)
Definition getitem (x : list string) (i : nat) : result string :=
  match x !! i with
  | Some t => Ok t
  | None => Err IndexError
  end.

(** [sep.join(xs)]. *)
Fixpoint join (sep : string) (xs : list string) : string :=
  match xs with
  | [] => ""
  | [t] => t
  | t :: ts => t +:+ sep +:+ join sep ts
  end.

(** ** Library behaviour the classes rely on *)

(** How a class is declared: as a subclass of pydantic's [BaseModel], or with
    the [dataclasses.dataclass] decorator. *)
Inductive class_kind : Type :=
  | PydanticModel
  | StdDataclass.

(** Python values as [dataclasses.asdict] and iteration see them. *)
#[warnings="-register-all"]
Inductive value : Type :=
  | VStr (s : string)
  | VInt (z : Z)
  | VObject (kind : class_kind) (cls : string) (fields : list (string * value))
  | VDict (items : list (string * value)).

(** [dataclasses._asdict_inner]: a dataclass instance becomes the dict of its
    fields, converted in turn; a dict is converted value by value; any other
    value is copied. *)
Fixpoint asdict_inner (v : value) : value :=
  match v with
  | VObject StdDataclass _ fields =>
      VDict (map (λ f, (f.1, asdict_inner f.2)) fields)
  | VDict items => VDict (map (λ f, (f.1, asdict_inner f.2)) items)
  | _ => v
  end.

(** [dataclasses.asdict(obj)]: refuses whatever is not a dataclass
    instance. *)
Definition dataclasses_asdict (obj : value) : result (list (string * value)) :=
  match obj with
  | VObject StdDataclass _ fields =>
      Ok (map (λ f, (f.1, asdict_inner f.2)) fields)
  | _ => Err (TypeError "asdict() should be called on dataclass instances")
  end.

(** [d.values()], then [iter]: the values in insertion order. *)
Definition dict_values (d : list (string * value)) : list value := d.*2.

(** The types a field can be annotated with. *)
Inductive py_type : Type :=
  | TStr
  | TInt
  | TModel (cls : string).

(** A class as [dataclasses.fields] sees it: how it is declared, and its
    annotated fields in the order of the class body. *)
Record class_decl : Type := {
  decl_kind : class_kind;
  decl_fields : list (string * py_type)
}.

(** [dataclasses.fields(obj)]: the fields of a dataclass; anything else is
    refused. *)
Definition dataclasses_fields (c : class_decl) : result (list (string * py_type)) :=
  match decl_kind c with
  | StdDataclass => Ok (decl_fields c)
  | PydanticModel =>
      Err (TypeError "must be called with a dataclass type or instance")
  end.

(** The part of a pydantic model's configuration that decides whether its
    fields can be assigned. *)
Record ConfigDict : Type := { frozen : bool }.

(** [BaseModel]'s own configuration, which a subclass inherits unless its
    body overrides it. *)
Definition BaseModel_config : ConfigDict := {| frozen := false |}.

(** [BaseModel.__setattr__] on a declared field: refused by a frozen model,
    otherwise the field is replaced; [upd] is the replacement. *)
Definition BaseModel_setattr {A : Type} (cfg : ConfigDict) (cls : string)
    (upd : A → A) (self : A) : result A :=
  if frozen cfg
  then Err (TypeError (cls +:+ " is immutable and does not support item assignment"))
  else Ok (upd self).

(** ** The data model: lines 20-89 of [domtbl.py] *)

Module DomTBLIndex.
Record t : Type := init { name : string; accession : string; length : Z }.

(** The class body (lines 20-23) sets no configuration. *)
Definition model_config : ConfigDict := BaseModel_config.

Definition to_value (self : t) : value :=
  VObject PydanticModel "DomTBLIndex"
    [("name", VStr (name self)); ("accession", VStr (accession self));
     ("length", VInt (length self))].

(** [self.name = v], [self.accession = v], [self.length = v]. *)
Inductive assign : Type :=
  | set_name (v : string)
  | set_accession (v : string)
  | set_length (v : Z).

Definition update (a : assign) (self : t) : t :=
  match a with
  | set_name v => init v (accession self) (length self)
  | set_accession v => init (name self) v (length self)
  | set_length v => init (name self) (accession self) v
  end.

Definition setattr (self : t) (a : assign) : result t :=
  BaseModel_setattr model_config "DomTBLIndex" (update a) self.
End DomTBLIndex.

Module DomTBLSeqScore.
Record t : Type := init { e_value : string; score : string; bias : string }.

Definition to_value (self : t) : value :=
  VObject PydanticModel "DomTBLSeqScore"
    [("e_value", VStr (e_value self)); ("score", VStr (score self));
     ("bias", VStr (bias self))].
End DomTBLSeqScore.

Module DomTBLDomScore.
Record t : Type := init {
  id : Z;
  size : Z;
  c_value : string;
  i_value : string;
  score : string;
  bias : string
}.

Definition to_value (self : t) : value :=
  VObject PydanticModel "DomTBLDomScore"
    [("id", VInt (id self)); ("size", VInt (size self));
     ("c_value", VStr (c_value self)); ("i_value", VStr (i_value self));
     ("score", VStr (score self)); ("bias", VStr (bias self))].
End DomTBLDomScore.

Module PyInterval.
(** Modelled from the spec: [hmmer_tables/interval.py] is missing. A
    [PyInterval] is the "half-open, 0-based interval" of section 3, the
    pair of ints "(begin: int, end: int)" of section 6. *)
Record t : Type := init { start : Z; stop : Z }.

Definition length (i : t) : Z := stop i - start i.
End PyInterval.

Module RInterval.
(** Modelled from the spec: [hmmer_tables/interval.py] is missing. An
    [RInterval] holds the 1-based closed pair; building one performs "no
    bounds validation (start ≤ stop is assumed, not checked)" (section
    4.3). *)
Record t : Type := mk { start : Z; stop : Z }.

Definition init (start stop : Z) : result t := Ok (mk start stop).

(** Modelled from the spec: "interval(start, stop) = [start-1, stop)", "a
    pure, stateless function of the pair". *)
Definition to_pyinterval (r : t) : result PyInterval.t :=
  Ok (PyInterval.init (start r - 1) (stop r)).
End RInterval.

Module DomTBLCoord.
Record t : Type := init { start : Z; stop : Z }.

Definition to_value (self : t) : value :=
  VObject PydanticModel "DomTBLCoord"
    [("start", VInt (start self)); ("stop", VInt (stop self))].

(** The [interval] property, lines 57-68. *)
Definition interval (self : t) : result PyInterval.t :=
  rinterval ← RInterval.init (start self) (stop self);
  RInterval.to_pyinterval rinterval.
End DomTBLCoord.

Module DomTBLRow.
Record t : Type := init {
  target : DomTBLIndex.t;
  query : DomTBLIndex.t;
  full_sequence : DomTBLSeqScore.t;
  domain : DomTBLDomScore.t;
  hmm_coord : DomTBLCoord.t;
  ali_coord : DomTBLCoord.t;
  env_coord : DomTBLCoord.t;
  acc : string;
  description : string
}.

(** The class body (lines 71-89) sets no configuration. *)
Definition model_config : ConfigDict := BaseModel_config.

(** The row as an object: declared with [BaseModel] as its base (line 71),
    with its fields in the order of the class body. *)
Definition to_value (self : t) : value :=
  VObject PydanticModel "DomTBLRow"
    [("target", DomTBLIndex.to_value (target self));
     ("query", DomTBLIndex.to_value (query self));
     ("full_sequence", DomTBLSeqScore.to_value (full_sequence self));
     ("domain", DomTBLDomScore.to_value (domain self));
     ("hmm_coord", DomTBLCoord.to_value (hmm_coord self));
     ("ali_coord", DomTBLCoord.to_value (ali_coord self));
     ("env_coord", DomTBLCoord.to_value (env_coord self));
     ("acc", VStr (acc self));
     ("description", VStr (description self))].

(** Lines 82-83. *)
Definition _asdict (self : t) : result (list (string * value)) :=
  dataclasses_asdict (to_value self).

(** Lines 85-86. *)
Definition __iter__ (self : t) : result (list value) :=
  d ← _asdict self;
  mret (dict_values d).

(** The class statement and the annotations of lines 71-80. *)
Definition declaration : class_decl :=
  {| decl_kind := PydanticModel;
     decl_fields :=
       [("target", TModel "DomTBLIndex"); ("query", TModel "DomTBLIndex");
        ("full_sequence", TModel "DomTBLSeqScore");
        ("domain", TModel "DomTBLDomScore");
        ("hmm_coord", TModel "DomTBLCoord"); ("ali_coord", TModel "DomTBLCoord");
        ("env_coord", TModel "DomTBLCoord");
        ("acc", TStr); ("description", TStr)] |}.

(** Lines 88-89: the dict of field name to field type. *)
Definition _field_types (self : t) : result (list (string * py_type)) :=
  fs ← dataclasses_fields declaration;
  mret fs.

(** [self.f = v] for each field [f]. *)
Inductive assign : Type :=
  | set_target (v : DomTBLIndex.t)
  | set_query (v : DomTBLIndex.t)
  | set_full_sequence (v : DomTBLSeqScore.t)
  | set_domain (v : DomTBLDomScore.t)
  | set_hmm_coord (v : DomTBLCoord.t)
  | set_ali_coord (v : DomTBLCoord.t)
  | set_env_coord (v : DomTBLCoord.t)
  | set_acc (v : string)
  | set_description (v : string).

Definition update (a : assign) (r : t) : t :=
  match a with
  | set_target v =>
      init v (query r) (full_sequence r) (domain r) (hmm_coord r)
        (ali_coord r) (env_coord r) (acc r) (description r)
  | set_query v =>
      init (target r) v (full_sequence r) (domain r) (hmm_coord r)
        (ali_coord r) (env_coord r) (acc r) (description r)
  | set_full_sequence v =>
      init (target r) (query r) v (domain r) (hmm_coord r)
        (ali_coord r) (env_coord r) (acc r) (description r)
  | set_domain v =>
      init (target r) (query r) (full_sequence r) v (hmm_coord r)
        (ali_coord r) (env_coord r) (acc r) (description r)
  | set_hmm_coord v =>
      init (target r) (query r) (full_sequence r) (domain r) v
        (ali_coord r) (env_coord r) (acc r) (description r)
  | set_ali_coord v =>
      init (target r) (query r) (full_sequence r) (domain r) (hmm_coord r)
        v (env_coord r) (acc r) (description r)
  | set_env_coord v =>
      init (target r) (query r) (full_sequence r) (domain r) (hmm_coord r)
        (ali_coord r) v (acc r) (description r)
  | set_acc v =>
      init (target r) (query r) (full_sequence r) (domain r) (hmm_coord r)
        (ali_coord r) (env_coord r) v (description r)
  | set_description v =>
      init (target r) (query r) (full_sequence r) (domain r) (hmm_coord r)
        (ali_coord r) (env_coord r) (acc r) v
  end.

Definition setattr (self : t) (a : assign) : result t :=
  BaseModel_setattr model_config "DomTBLRow" (update a) self.
End DomTBLRow.

(** ** [read_domtbl]: lines 92-123 *)

(** The body of the loop, lines 104-121: one row from the tokens [x] of one
    line. Python evaluates the keyword arguments left to right, so the
    subscripts and the calls of [int] happen in the order written here and
    the first one that raises decides the exception. *)
Definition parse_row (x : list string) : result DomTBLRow.t :=
  x0 ← getitem x 0;
  x1 ← getitem x 1;
  x2 ← getitem x 2 ≫= int;
  let target := DomTBLIndex.init x0 x1 x2 in
  x3 ← getitem x 3;
  x4 ← getitem x 4;
  x5 ← getitem x 5 ≫= int;
  let query := DomTBLIndex.init x3 x4 x5 in
  x6 ← getitem x 6;
  x7 ← getitem x 7;
  x8 ← getitem x 8;
  let full_sequence := DomTBLSeqScore.init x6 x7 x8 in
  x9 ← getitem x 9 ≫= int;
  x10 ← getitem x 10 ≫= int;
  x11 ← getitem x 11;
  x12 ← getitem x 12;
  x13 ← getitem x 13;
  x14 ← getitem x 14;
  let domain := DomTBLDomScore.init x9 x10 x11 x12 x13 x14 in
  x15 ← getitem x 15 ≫= int;
  x16 ← getitem x 16 ≫= int;
  let hmm_coord := DomTBLCoord.init x15 x16 in
  x17 ← getitem x 17 ≫= int;
  x18 ← getitem x 18 ≫= int;
  let ali_coord := DomTBLCoord.init x17 x18 in
  x19 ← getitem x 19 ≫= int;
  x20 ← getitem x 20 ≫= int;
  let env_coord := DomTBLCoord.init x19 x20 in
  x21 ← getitem x 21;
  let description := join " " (drop 22 x) in
  mret (DomTBLRow.init target query full_sequence domain
          hmm_coord ali_coord env_coord x21 description).

(** The loop of lines 103-122: [rows] is the list built so far, [xs] what
    the iterator still yields. An exception leaves the loop and the
    function, and the rows built so far with it. *)
Fixpoint read_rows (rows : list DomTBLRow.t) (xs : list (list string))
  : result (list DomTBLRow.t) :=
  match xs with
  | [] => Ok rows
  | x :: xs' =>
      row ← parse_row x;
      read_rows (rows ++ [row]) xs'
  end.

(** Modelled from the spec: [hmmer_tables/csv_iter.py] is missing. Section
    4.1: the tokens of a line are "obtained by splitting on runs of
    whitespace". [cur] is the token being read. *)
Fixpoint split_ws (cur : string) (s : string) : list string :=
  match s with
  | EmptyString => if decide (cur = "") then [] else [cur]
  | String c s' =>
      if is_space c
      then (if decide (cur = "") then [] else [cur]) ++ split_ws "" s'
      else split_ws (cur +:+ String c "") s'
  end.

Definition tokenize (line : string) : list string := split_ws "" line.

(** Modelled from the spec: [hmmer_tables/csv_iter.py] is missing. Section
    4.4: the reader gets the tokens of "every non-blank data line, in file
    order". A file is given by its lines. *)
Definition csv_iter (file : list string) : list (list string) :=
  filter (λ x, x ≠ []) (tokenize <$> file).

(** What a path names: a file with its lines, readable or not. *)
Inductive fs_node : Type :=
  | RegularFile (readable : bool) (lines : list string).

(** What a caller can pass as [filename]: a path, or (as the docstring
    offers) an open text stream, given by the lines it still holds. *)
Inductive file_arg : Type :=
  | PathArg (path : string)
  | StreamArg (lines : list string).

(** [open(filename, "r")]: the builtin takes a path (or a descriptor), never
    a stream object. *)
Definition open (fs : gmap string fs_node) (filename : file_arg)
  : result (list string) :=
  match filename with
  | PathArg p =>
      match fs !! p with
      | None => Err (FileNotFoundError p)
      | Some (RegularFile false _) => Err (PermissionError p)
      | Some (RegularFile true lines) => Ok lines
      end
  | StreamArg _ =>
      Err (TypeError "expected str, bytes or os.PathLike object, not TextIOWrapper")
  end.

Definition read_domtbl (fs : gmap string fs_node) (filename : file_arg)
  : result (list DomTBLRow.t) :=
  file ← open fs filename;
  read_rows [] (csv_iter file).

Definition scenario_line : string :=
  "sp|P1 ACC1 100 sp|Q1 ACC2 200 1e-10 50.0 0.5 1 1 1e-12 1e-11 48.0 0.3 10 50 12 48 1 60 0.95 Example description here".


(** ** The specification's side *)

(** The token positions that are coerced with [int], in the order in which
    [parse_row] reaches them, and the score-like positions. *)
Definition int_positions : list nat := [2; 5; 9; 10; 15; 16; 17; 18; 19; 20]%nat.
Definition score_positions : list nat := [6; 7; 8; 11; 12; 13; 14]%nat.

(** Section 4.2: "a syntactically valid base-10 integer (optionally
    signed)", with its value: an optional sign and one or more digits. *)
Fixpoint decimal_value (acc : Z) (cs : list ascii) : option Z :=
  match cs with
  | [] => Some acc
  | c :: cs' =>
      if is_digit c then decimal_value (acc * 10 + digit_val c) cs' else None
  end.

Definition unsigned_value (cs : list ascii) : option Z :=
  match cs with
  | [] => None
  | _ :: _ => decimal_value 0 cs
  end.

Definition base10_value (s : string) : option Z :=
  match list_ascii_of_string s with
  | "+"%char :: cs => unsigned_value cs
  | "-"%char :: cs => Z.opp <$> unsigned_value cs
  | cs => unsigned_value cs
  end.

(** The positions of the 1-based closed interval from [start] to [stop]. *)
Definition closed_interval_positions (start stop : Z) : list Z :=
  seqZ start (stop - start + 1).

(** The token at position [i], and its integer under a coercion. *)
Definition tok (x : list string) (i : nat) : string := default "" (x !! i).

Definition tok_int (coerce : string → option Z) (x : list string) (i : nat) : Z :=
  default 0 (coerce (tok x i)).

(** Section 4.3: the fixed positional mapping, for a given coercion of the
    integer positions. *)
Definition row_with (coerce : string → option Z) (x : list string) : DomTBLRow.t :=
  let int_at := tok_int coerce x in
  DomTBLRow.init
    (DomTBLIndex.init (tok x 0) (tok x 1) (int_at 2%nat))
    (DomTBLIndex.init (tok x 3) (tok x 4) (int_at 5%nat))
    (DomTBLSeqScore.init (tok x 6) (tok x 7) (tok x 8))
    (DomTBLDomScore.init (int_at 9%nat) (int_at 10%nat)
       (tok x 11) (tok x 12) (tok x 13) (tok x 14))
    (DomTBLCoord.init (int_at 15%nat) (int_at 16%nat))
    (DomTBLCoord.init (int_at 17%nat) (int_at 18%nat))
    (DomTBLCoord.init (int_at 19%nat) (int_at 20%nat))
    (tok x 21)
    (join " " (drop 22 x)).

(** The row of section 4.3 for the tokens of a valid line. *)
Definition spec_row (x : list string) : DomTBLRow.t := row_with base10_value x.

(** Section 8, "valid domtbl lines with N ≥ 22 whitespace-separated
    fields": at least 22 tokens, and a base-10 integer at every integer
    position. *)
Definition valid_tokens (x : list string) : bool :=
  (22 <=? length x)%nat
  && forallb (λ k, bool_decide (is_Some (base10_value (tok x k)))) int_positions.

(** The first token that [int] rejects, among the tokens that are present
    at the integer positions. *)
Definition rejected (t : string) : bool :=
  match py_int t with
  | None => true
  | Some _ => false
  end.

Definition first_bad_int (x : list string) : option string :=
  List.find rejected (omap (λ k, x !! k) int_positions).

(** What [parse_row] does, in closed form. *)
Definition parse_outcome (x : list string) : result DomTBLRow.t :=
  match first_bad_int x with
  | Some t => Err (ValueError t)
  | None => if (length x <? 22)%nat then Err IndexError else Ok (row_with py_int x)
  end.

(** Attribute access by name on the object of a model. *)
Fixpoint assoc (name : string) (fields : list (string * value)) : option value :=
  match fields with
  | [] => None
  | f :: fields' => if decide (f.1 = name) then Some f.2 else assoc name fields'
  end.

Definition getattr (obj : value) (name : string) : option value :=
  match obj with
  | VObject _ _ fields => assoc name fields
  | _ => None
  end.

(** The field an assignment names and the value it stores. *)
Definition row_assign_field (a : DomTBLRow.assign) : string * value :=
  match a with
  | DomTBLRow.set_target v => ("target", DomTBLIndex.to_value v)
  | DomTBLRow.set_query v => ("query", DomTBLIndex.to_value v)
  | DomTBLRow.set_full_sequence v => ("full_sequence", DomTBLSeqScore.to_value v)
  | DomTBLRow.set_domain v => ("domain", DomTBLDomScore.to_value v)
  | DomTBLRow.set_hmm_coord v => ("hmm_coord", DomTBLCoord.to_value v)
  | DomTBLRow.set_ali_coord v => ("ali_coord", DomTBLCoord.to_value v)
  | DomTBLRow.set_env_coord v => ("env_coord", DomTBLCoord.to_value v)
  | DomTBLRow.set_acc v => ("acc", VStr v)
  | DomTBLRow.set_description v => ("description", VStr v)
  end.

Definition index_assign_field (a : DomTBLIndex.assign) : string * value :=
  match a with
  | DomTBLIndex.set_name v => ("name", VStr v)
  | DomTBLIndex.set_accession v => ("accession", VStr v)
  | DomTBLIndex.set_length v => ("length", VInt v)
  end.

(** ** Concrete inputs *)

(** A file system that holds one readable file. *)
Definition one_file (path : string) (lines : list string) : gmap string fs_node :=
  {[ path := RegularFile true lines ]}.

(** The scenario of section 8 without its description: exactly 22 tokens. *)
Definition line_22_tokens : string :=
  "sp|P1 ACC1 100 sp|Q1 ACC2 200 1e-10 50.0 0.5 1 1 1e-12 1e-11 48.0 0.3 10 50 12 48 1 60 0.95".

(** A second valid line: signed lengths are integers too, the scores are not
    numbers, the envelope runs backwards and the description has a run of
    blanks. *)
Definition line_odd : string :=
  "t - +7 q - -3 - nan * 2 5 inf - - - 9 4 3 3 60 1 0.5 two   words".

(** Lines with only 10 tokens. *)
Definition line_10_tokens : string :=
  "sp|P1 ACC1 100 sp|Q1 ACC2 200 1e-10 50.0 0.5 1".
Definition line_10_tokens_bad_length : string :=
  "sp|P1 ACC1 abc sp|Q1 ACC2 200 1e-10 50.0 0.5 1".
Definition line_3_tokens : string := "other target 5".

(** The scenario line with [N/A] as domain id, and with [N/A] as domain
    size. *)
Definition line_na_domain_id : string :=
  "sp|P1 ACC1 100 sp|Q1 ACC2 200 1e-10 50.0 0.5 N/A 1 1e-12 1e-11 48.0 0.3 10 50 12 48 1 60 0.95 Example description here".
Definition line_na_domain_size : string :=
  "sp|P1 ACC1 100 sp|Q1 ACC2 200 1e-10 50.0 0.5 1 N/A 1e-12 1e-11 48.0 0.3 10 50 12 48 1 60 0.95 Example description here".

(** The scenario line with an underscore in the target length. *)
Definition line_underscore : string :=
  "sp|P1 ACC1 1_0 sp|Q1 ACC2 200 1e-10 50.0 0.5 1 1 1e-12 1e-11 48.0 0.3 10 50 12 48 1 60 0.95 Example description here".

(** The scenario line with the target length in Arabic-Indic digits. *)
Definition line_arabic_indic : string :=
  "sp|P1 ACC1 ١٢ sp|Q1 ACC2 200 1e-10 50.0 0.5 1 1 1e-12 1e-11 48.0 0.3 10 50 12 48 1 60 0.95 Example description here".

(** The row of the scenario of section 8. *)
Definition scenario_row : DomTBLRow.t :=
  DomTBLRow.init
    (DomTBLIndex.init "sp|P1" "ACC1" 100)
    (DomTBLIndex.init "sp|Q1" "ACC2" 200)
    (DomTBLSeqScore.init "1e-10" "50.0" "0.5")
    (DomTBLDomScore.init 1 1 "1e-12" "1e-11" "48.0" "0.3")
    (DomTBLCoord.init 10 50)
    (DomTBLCoord.init 12 48)
    (DomTBLCoord.init 1 60)
    "0.95"
    "Example description here".

(** ** Further notions used in the properties of the code *)


(** The lines that [parse_row] turns into a row: at least 22 tokens, and
    [int] accepts the token at each integer position. *)
Definition parses (x : list string) : bool :=
  (22 <=? length x)%nat
  && forallb (λ k, negb (rejected (tok x k))) int_positions.

(** The ASCII characters that can occur in a literal that [int] accepts:
    digits, the underscore, the white space of the C locale and the two
    signs. *)
Definition int_char (c : ascii) : bool :=
  is_digit c || is_underscore c || is_c_space c
  || bool_decide (c = "+"%char) || bool_decide (c = "-"%char).

(** The code points that can occur in a literal that [int] accepts: the
    ASCII ones above, the white space outside ASCII and the decimal digits
    of the other scripts. *)
Definition int_code_point (cp : N) : bool :=
  if (cp <? 0x80)%N then int_char (ascii_of_N cp)
  else unicode_isspace cp || bool_decide (is_Some (unicode_decimal cp)).



(** A file of the scenario line followed by a line with only 10 tokens and
    by one whose domain id is [N/A]. *)
Definition lines_with_failures : list string :=
  [scenario_line; line_10_tokens; line_na_domain_id].

(** A file system with two files and their concatenation. *)
Definition files_a_b_both : gmap string fs_node :=
  <["both.domtbl" := RegularFile true ([scenario_line] ++ [line_odd; line_10_tokens])]>
    (<["b.domtbl" := RegularFile true [line_odd; line_10_tokens]]>
       (one_file "a.domtbl" [scenario_line])).

(** ** Basic facts about the builtins *)

(** A digit and a sign are ASCII characters and no white space. *)
Lemma digit_plain c :
  is_digit c = true →
  is_c_space c = false ∧ (N_of_ascii c <? 0x80)%N = true.
Proof.
  destruct c as [[] [] [] [] [] [] [] []]; intros H; vm_compute in H;
    try discriminate H; split; reflexivity.
Qed.

Lemma lstrip_no_space cs :
  Forall (λ c, is_c_space c = false) cs → lstrip cs = cs.
Proof. destruct 1 as [|c cs Hc _]; simpl; [done | by rewrite Hc]. Qed.

Lemma strip_no_space cs :
  Forall (λ c, is_c_space c = false) cs → strip cs = cs.
Proof.
  intros H. unfold strip. rewrite (lstrip_no_space cs H).
  rewrite lstrip_no_space by (by apply Forall_rev).
  apply rev_involutive.
Qed.

(** An ASCII [str] is its own list of code points, and [int] reads it as it
    is. *)
Lemma utf8_decode_ascii cs :
  Forall (λ c, (N_of_ascii c <? 0x80)%N = true) cs →
  utf8_decode cs = Some (N_of_ascii <$> cs).
Proof.
  induction 1 as [|c cs Hc _ IH]; [done|].
  simpl. by rewrite Hc, IH.
Qed.

Lemma to_ascii_literal_ascii cs :
  Forall (λ c, (N_of_ascii c <? 0x80)%N = true) cs →
  to_ascii_literal (N_of_ascii <$> cs) = Some cs.
Proof.
  induction 1 as [|c cs Hc _ IH]; [done|].
  rewrite fmap_cons. cbn [to_ascii_literal]. unfold to_ascii_char.
  by rewrite Hc, IH, ascii_N_embedding.
Qed.

Lemma py_int_ascii s :
  Forall (λ c, (N_of_ascii c <? 0x80)%N = true) (list_ascii_of_string s) →
  py_int s = ascii_int (list_ascii_of_string s).
Proof.
  intros H. unfold py_int.
  rewrite (utf8_decode_ascii _ H). simpl.
  by rewrite (to_ascii_literal_ascii _ H).
Qed.

Lemma decimal_value_digits acc cs z :
  decimal_value acc cs = Some z → Forall (λ c, is_digit c = true) cs.
Proof.
  revert acc. induction cs as [|c cs IH]; intros acc H; simpl in H.
  - constructor.
  - destruct (is_digit c) eqn:Hc; [|done]. constructor; eauto.
Qed.

Lemma digits_value_decimal acc prev cs z :
  decimal_value acc cs = Some z → cs ≠ [] ∨ prev = true →
  digits_value acc prev cs = Some z.
Proof.
  revert acc prev. induction cs as [|c cs IH]; intros acc prev H Hne; simpl in *.
  - destruct Hne as [?| ->]; [done | exact H].
  - destruct (is_digit c); [|done]. apply IH; auto.
Qed.

Lemma unsigned_value_digits cs z :
  unsigned_value cs = Some z →
  digits_value 0 false cs = Some z
  ∧ Forall (λ c, is_c_space c = false ∧ (N_of_ascii c <? 0x80)%N = true) cs.
Proof.
  destruct cs as [|c cs]; [done|]. unfold unsigned_value. intros H. split.
  - apply digits_value_decimal; [done | by left].
  - eapply Forall_impl; [by eapply decimal_value_digits|].
    apply digit_plain.
Qed.

(** The ASCII reading agrees with the base-10 integers of the
    specification. *)
Lemma ascii_int_base10 s z :
  base10_value s = Some z →
  ascii_int (list_ascii_of_string s) = Some z
  ∧ Forall (λ c, is_c_space c = false ∧ (N_of_ascii c <? 0x80)%N = true)
      (list_ascii_of_string s).
Proof.
  unfold base10_value.
  destruct (list_ascii_of_string s) as [|c cs]; [done|]. intros H.
  assert (Hpl : Forall (λ c, is_c_space c = false
                             ∧ (N_of_ascii c <? 0x80)%N = true) (c :: cs)).
  { destruct (decide (c = "+"%char)) as [->|Hp];
      [|destruct (decide (c = "-"%char)) as [->|Hm]].
    - apply unsigned_value_digits in H as [_ H]. by constructor.
    - destruct (unsigned_value cs) eqn:Hu; [|done].
      apply unsigned_value_digits in Hu as [_ Hu]. by constructor.
    - assert (unsigned_value (c :: cs) = Some z) as Hu.
      { revert H. destruct c as [[] [] [] [] [] [] [] []]; try done. }
      by apply unsigned_value_digits in Hu as [_ Hu]. }
  split; [|done]. unfold ascii_int.
  rewrite strip_no_space
    by (eapply Forall_impl; [exact Hpl | by intros ? [? _]]).
  destruct (decide (c = "+"%char)) as [->|Hp];
    [|destruct (decide (c = "-"%char)) as [->|Hm]].
  - by apply unsigned_value_digits in H as [H _].
  - destruct (unsigned_value cs) eqn:Hu; [|done].
    apply unsigned_value_digits in Hu as [-> _]. exact H.
  - assert (unsigned_value (c :: cs) = Some z) as Hu.
    { revert H. destruct c as [[] [] [] [] [] [] [] []]; try done. }
    apply unsigned_value_digits in Hu as [Hu _].
    revert Hu. destruct c as [[] [] [] [] [] [] [] []]; try done.
Qed.

(** [int] accepts every base-10 integer of the specification, with its
    value. *)
Lemma py_int_base10 s z : base10_value s = Some z → py_int s = Some z.
Proof.
  intros H. apply ascii_int_base10 in H as [Hint Hpl].
  rewrite py_int_ascii; [done|].
  eapply Forall_impl; [exact Hpl | by intros ? [_ ?]].
Qed.

(** [int] on literals outside the base-10 integers of the specification. *)
Example int_underscore : py_int "1_000" = Some 1000.
Proof. vm_compute. reflexivity. Qed.

Example int_arabic_indic : py_int "٣" = Some 3.
Proof. vm_compute. reflexivity. Qed.

Example int_no_break_space :
  py_int (String (ascii_of_nat 194) (String (ascii_of_nat 160) "5")) = Some 5.
Proof. vm_compute. reflexivity. Qed.

Example int_file_separator :
  py_int (String (ascii_of_nat 28) "5") = None.
Proof. vm_compute. reflexivity. Qed.

(** ** [parse_row] in closed form *)

Lemma tok_int_Some coerce x k z :
  coerce (tok x k) = Some z → tok_int coerce x k = z.
Proof. unfold tok_int. by intros ->. Qed.

(** One case split on the next call of [int]. *)
Ltac case_int :=
  match goal with
  | |- context [py_int ?t] =>
      let H := fresh "Hint" in
      destruct (py_int t) eqn:H; simpl; try reflexivity
  end.

(** Split on the next token of [x]; the first goal is the line that ends
    here. *)
Ltac next_token x :=
  let t := fresh "t" in
  let x' := fresh "x" in
  destruct x as [|t x']; [|rename x' into x].

Lemma parse_row_outcome x : parse_row x = parse_outcome x.
Proof.
  unfold parse_outcome, first_bad_int, row_with, tok_int, tok, parse_row, int, rejected.
  do 22 (next_token x; [simpl; try reflexivity; repeat case_int|]).
  simpl. repeat case_int.
Qed.

(** The scenario of section 8 evaluates as the specification says. *)
Example scenario_parses :
  read_domtbl (one_file "hits.domtbl" [scenario_line]) (PathArg "hits.domtbl")
  = Ok [scenario_row].
Proof. vm_compute. reflexivity. Qed.

Example scenario_hmm_interval :
  DomTBLCoord.interval (DomTBLRow.hmm_coord scenario_row)
  = Ok (PyInterval.init 9 50).
Proof. reflexivity. Qed.

(** ** The loop and the reader *)

Lemma lookup_tok (x : list string) (k : nat) :
  (k < length x)%nat → x !! k = Some (tok x k).
Proof.
  intros H. unfold tok.
  destruct (lookup_lt_is_Some_2 x k H) as [t ->]. done.
Qed.

Lemma valid_tokens_length x : valid_tokens x = true → (22 ≤ length x)%nat.
Proof.
  unfold valid_tokens. intros H.
  apply andb_true_iff in H as [H _]. by apply Nat.leb_le.
Qed.

Lemma valid_tokens_int x k :
  valid_tokens x = true → k ∈ int_positions →
  ∃ z, base10_value (tok x k) = Some z ∧ py_int (tok x k) = Some z.
Proof.
  unfold valid_tokens. intros H Hk.
  apply andb_true_iff in H as [_ H].
  rewrite forallb_forall in H.
  apply list_elem_of_In, H, bool_decide_eq_true in Hk as [z Hz].
  exists z. split; [done | by apply py_int_base10].
Qed.

Lemma valid_tokens_first_bad x : valid_tokens x = true → first_bad_int x = None.
Proof.
  intros H. unfold first_bad_int.
  destruct (find rejected _) as [t|] eqn:Hfind; [|done].
  apply find_some in Hfind as [Hin Hrej].
  apply list_elem_of_In, list_elem_of_omap in Hin as (k & Hk & Hlook).
  destruct (valid_tokens_int x k H Hk) as (z & _ & Hz).
  unfold tok in Hz. rewrite Hlook in Hz. simpl in Hz.
  unfold rejected in Hrej. by rewrite Hz in Hrej.
Qed.

Lemma valid_tokens_row x : valid_tokens x = true → row_with py_int x = spec_row x.
Proof.
  intros H. unfold spec_row, row_with.
  assert (Heq : ∀ k, k ∈ int_positions →
                     tok_int py_int x k = tok_int base10_value x k).
  { intros k Hk. destruct (valid_tokens_int x k H Hk) as (z & Hb & Hp).
    by rewrite (tok_int_Some _ _ _ _ Hb), (tok_int_Some _ _ _ _ Hp). }
  rewrite !Heq by (unfold int_positions; set_solver). done.
Qed.

(** A valid line gives the row of section 4.3. *)
Lemma parse_row_valid x : valid_tokens x = true → parse_row x = Ok (spec_row x).
Proof.
  intros H. rewrite parse_row_outcome. unfold parse_outcome.
  rewrite (valid_tokens_first_bad x H).
  pose proof (valid_tokens_length x H) as Hlen.
  destruct (Nat.ltb_spec (length x) 22); [lia|].
  by rewrite (valid_tokens_row x H).
Qed.

(** [parse_row] raises nothing but [IndexError] and [ValueError]. *)
Lemma parse_row_errors x e :
  parse_row x = Err e → e = IndexError ∨ ∃ t, e = ValueError t.
Proof.
  rewrite parse_row_outcome. unfold parse_outcome.
  destruct (first_bad_int x) as [t|]; [intros [= <-]; eauto|].
  destruct (length x <? 22)%nat; [intros [= <-]; eauto | done].
Qed.

Lemma read_rows_ok (f : list string → DomTBLRow.t) xs rows :
  Forall (λ x, parse_row x = Ok (f x)) xs →
  read_rows rows xs = Ok (rows ++ (f <$> xs)).
Proof.
  intros H. revert rows.
  induction H as [|x xs Hx _ IH]; intros rows; simpl.
  - by rewrite app_nil_r.
  - rewrite Hx. simpl. rewrite IH, <- app_assoc. done.
Qed.

(** A line that does not parse makes the loop raise: the exception is that
    of the first such line. *)
Lemma read_rows_err xs rows x e0 :
  x ∈ xs → parse_row x = Err e0 →
  ∃ y e, y ∈ xs ∧ parse_row y = Err e ∧ read_rows rows xs = Err e.
Proof.
  intros Hin Hx. revert rows.
  induction xs as [|y xs IH]; intros rows; [by apply elem_of_nil in Hin|].
  simpl. destruct (parse_row y) as [r|e] eqn:Hy.
  - apply elem_of_cons in Hin as [->|Hin]; [congruence|].
    destruct (IH Hin (rows ++ [r])) as (y' & e & Hy' & He & Hrows).
    exists y', e. split_and!; [by right | done | done].
  - exists y, e. split_and!; [by left | done | done].
Qed.

Lemma csv_iter_nonblank lines :
  Forall (λ line, tokenize line ≠ []) lines → csv_iter lines = tokenize <$> lines.
Proof.
  unfold csv_iter. induction 1 as [|line lines Hl _ IH]; [done|].
  rewrite fmap_cons, filter_cons_True by done. by rewrite IH.
Qed.

Lemma valid_lines_nonblank lines :
  forallb (λ line, valid_tokens (tokenize line)) lines = true →
  Forall (λ line, tokenize line ≠ []) lines
  ∧ Forall (λ x, parse_row x = Ok (spec_row x)) (tokenize <$> lines).
Proof.
  intros H0.
  assert (H : Forall (λ line, valid_tokens (tokenize line) = true) lines).
  { apply Forall_forall. intros line Hin.
    by apply (proj1 (forallb_forall _ _) H0), list_elem_of_In. }
  clear H0. split.
  - eapply Forall_impl; [exact H|]. intros line Hv Hnil. simpl in Hv.
    apply valid_tokens_length in Hv. rewrite Hnil in Hv. simpl in Hv. lia.
  - apply Forall_fmap. eapply Forall_impl; [exact H|].
    intros line Hv. by apply parse_row_valid.
Qed.

(** ** The properties of the specification *)

(** C1. For a readable file whose lines are valid domtbl lines (at least 22
    white-space separated fields, base-10 integers at positions 2, 5, 9, 10
    and 15 to 20), [read_domtbl] returns exactly one row per line, in file
    order; the row of a line is the one of section 4.3: the first 22 tokens
    under the positional mapping, the integer positions coerced, the score
    positions kept as strings, and the tokens from position 22 on joined by
    single spaces as the description. *)
Theorem read_domtbl_valid_lines (fs : gmap string fs_node) (path : string)
    (lines : list string) :
  fs !! path = Some (RegularFile true lines) →
  forallb (λ line, valid_tokens (tokenize line)) lines = true →
  read_domtbl fs (PathArg path)
  = Ok ((λ line, spec_row (tokenize line)) <$> lines).
Proof.
  intros Hfs Hvalid. unfold read_domtbl, open. rewrite Hfs. simpl.
  destruct (valid_lines_nonblank lines Hvalid) as [Hnb Hrows].
  rewrite (csv_iter_nonblank lines Hnb).
  rewrite (read_rows_ok spec_row _ [] Hrows). simpl.
  by rewrite <- list_fmap_compose.
Qed.

Lemma read_domtbl_valid_lines_witness :
  read_domtbl (one_file "hits.domtbl" [scenario_line; line_odd])
    (PathArg "hits.domtbl")
  = Ok [scenario_row;
        DomTBLRow.init
          (DomTBLIndex.init "t" "-" 7) (DomTBLIndex.init "q" "-" (-3))
          (DomTBLSeqScore.init "-" "nan" "*")
          (DomTBLDomScore.init 2 5 "inf" "-" "-" "-")
          (DomTBLCoord.init 9 4) (DomTBLCoord.init 3 3) (DomTBLCoord.init 60 1)
          "0.5" "two words"].
Proof.
  rewrite (read_domtbl_valid_lines
             (one_file "hits.domtbl" [scenario_line; line_odd])
             "hits.domtbl" [scenario_line; line_odd]).
  - vm_compute. reflexivity.
  - vm_compute. reflexivity.
  - vm_compute. reflexivity.
Defined.

(** C10. A line with exactly 22 tokens never raises the index-out-of-range
    error ([MalformedRow]); when its integer positions hold base-10 integers
    it parses, and the description of its row is the empty string. *)
Theorem exactly_22_tokens (line : string) :
  length (tokenize line) = 22%nat →
  (∀ e, parse_row (tokenize line) = Err e → error_kind e ≠ Some MalformedRow)
  ∧ (valid_tokens (tokenize line) = true →
     ∃ r, parse_row (tokenize line) = Ok r
          ∧ r = spec_row (tokenize line)
          ∧ DomTBLRow.description r = ""
          ∧ ∀ fs path, fs !! path = Some (RegularFile true [line]) →
              read_domtbl fs (PathArg path) = Ok [r]).
Proof.
  intros Hlen. split.
  - intros e. rewrite parse_row_outcome. unfold parse_outcome.
    destruct (first_bad_int _) as [t|]; [by intros [= <-]|].
    rewrite Hlen. done.
  - intros Hv. exists (spec_row (tokenize line)). split_and!.
    + by apply parse_row_valid.
    + done.
    + unfold spec_row, row_with. simpl.
      rewrite drop_ge by lia. done.
    + intros fs path Hfs.
      apply (read_domtbl_valid_lines fs path [line] Hfs).
      simpl. by rewrite Hv.
Qed.

Lemma exactly_22_tokens_witness :
  length (tokenize line_22_tokens) = 22%nat
  ∧ ∃ r, parse_row (tokenize line_22_tokens) = Ok r
         ∧ DomTBLRow.description r = "".
Proof.
  assert (Hlen : length (tokenize line_22_tokens) = 22%nat)
    by (vm_compute; reflexivity).
  assert (Hvalid : valid_tokens (tokenize line_22_tokens) = true)
    by (vm_compute; reflexivity).
  split; [exact Hlen|].
  destruct (proj2 (exactly_22_tokens line_22_tokens Hlen) Hvalid)
    as (r & Hr & _ & Hd & _).
  exists r. split; assumption.
Defined.


Lemma first_bad_int_exists x k t :
  k ∈ int_positions → x !! k = Some t → py_int t = None →
  ∃ t', first_bad_int x = Some t'.
Proof.
  intros Hk Hx Ht. unfold first_bad_int.
  destruct (find rejected _) as [t'|] eqn:Hfind; [eauto|].
  assert (rejected t = false) as Hrej.
  { apply (find_none _ _ Hfind), list_elem_of_In, list_elem_of_omap. eauto. }
  unfold rejected in Hrej. by rewrite Ht in Hrej.
Qed.

Lemma first_bad_int_position x t :
  first_bad_int x = Some t →
  ∃ k, k ∈ int_positions ∧ x !! k = Some t ∧ py_int t = None.
Proof.
  unfold first_bad_int. intros Hfind.
  apply find_some in Hfind as [Hin Hrej].
  apply list_elem_of_In, list_elem_of_omap in Hin as (k & Hk & Hx).
  exists k. split_and!; [done | done |].
  unfold rejected in Hrej. by destruct (py_int t).
Qed.

(** Replacing a score-like token changes neither the tokens that [int]
    sees nor the number of tokens. *)
Lemma first_bad_int_score x j s :
  j ∈ score_positions → first_bad_int (<[j:=s]> x) = first_bad_int x.
Proof.
  intros Hj. unfold first_bad_int. f_equal.
  apply list_omap_ext. apply Forall2_same_length_lookup_2; [done|].
  intros i k k' Hk Hk'. rewrite Hk in Hk'. injection Hk' as <-.
  apply list_lookup_insert_ne. intros ->.
  apply list_elem_of_lookup_2, list_elem_of_In in Hk.
  apply list_elem_of_In in Hj.
  unfold int_positions, score_positions in *. simpl in *. lia.
Qed.


(** C4, as the code has it. A line that the iterator yields with fewer than
    22 tokens makes the call fail, and no rows are returned. The line itself
    raises the [ValueError] of the first of its tokens at an integer
    position that [int] rejects, and [IndexError] (the index-out-of-range
    condition, [MalformedRow]) when there is none; the call raises an
    [IndexError] or a [ValueError], that of the first line that fails. *)
Theorem short_line_fails (fs : gmap string fs_node) (path : string)
    (lines : list string) (i : nat) (x : list string) :
  fs !! path = Some (RegularFile true lines) →
  csv_iter lines !! i = Some x →
  (length x < 22)%nat →
  parse_row x = Err (match first_bad_int x with
                     | Some t => ValueError t
                     | None => IndexError
                     end)
  ∧ ∃ e, read_domtbl fs (PathArg path) = Err e
         ∧ (e = IndexError ∨ ∃ t, e = ValueError t).
Proof.
  intros Hfs Hx Hlen.
  assert (Hrow : parse_row x = Err (match first_bad_int x with
                                    | Some t => ValueError t
                                    | None => IndexError
                                    end)).
  { rewrite parse_row_outcome. unfold parse_outcome.
    destruct (first_bad_int x); [done|].
    by destruct (Nat.ltb_spec (length x) 22); [|lia]. }
  split; [exact Hrow|].
  unfold read_domtbl, open. rewrite Hfs. simpl.
  apply list_elem_of_lookup_2 in Hx.
  destruct (read_rows_err _ [] _ _ Hx Hrow) as (y & e & _ & Hy & Hread).
  exists e. split; [done|]. by apply parse_row_errors in Hy.
Qed.

Lemma short_line_fails_witness :
  parse_row (tokenize line_10_tokens)
  = Err (match first_bad_int (tokenize line_10_tokens) with
         | Some t => ValueError t
         | None => IndexError
         end)
  ∧ ∃ e, read_domtbl (one_file "hits.domtbl" [scenario_line; line_10_tokens])
           (PathArg "hits.domtbl") = Err e
         ∧ (e = IndexError ∨ ∃ t, e = ValueError t).
Proof.
  apply (short_line_fails
           (one_file "hits.domtbl" [scenario_line; line_10_tokens])
           "hits.domtbl" [scenario_line; line_10_tokens] 1
           (tokenize line_10_tokens)).
  - vm_compute. reflexivity.
  - vm_compute. reflexivity.
  - apply Nat.ltb_lt. vm_compute. reflexivity.
Defined.

(** C4 as stated fails. A line with only 10 tokens whose target length is
    not an integer raises the [ValueError] of [int], which is not the
    [MalformedRow] condition. And the [IndexError] of a short line carries
    neither line number nor content: a 10-token line that is the second line
    of one file and a 3-token line that is the first line of another raise
    the same exception. *)
Lemma short_line_not_malformed_row :
  length (tokenize line_10_tokens_bad_length) = 10%nat
  ∧ read_domtbl (one_file "hits.domtbl" [line_10_tokens_bad_length])
      (PathArg "hits.domtbl") = Err (ValueError "abc")
  ∧ error_kind (ValueError "abc") ≠ Some MalformedRow
  ∧ read_domtbl (one_file "hits.domtbl" [scenario_line; line_10_tokens])
      (PathArg "hits.domtbl") = Err IndexError
  ∧ read_domtbl (one_file "other.domtbl" [line_3_tokens])
      (PathArg "other.domtbl") = Err IndexError.
Proof.
  split_and!; [vm_compute; reflexivity | vm_compute; reflexivity | discriminate
              | vm_compute; reflexivity | vm_compute; reflexivity].
Qed.

(** C2. For start ≤ stop the [interval] of a coordinate is the 0-based
    half-open interval (start-1, stop); its length stop-(start-1) is
    stop-start+1, the number of positions of the 1-based closed interval. *)
Theorem interval_half_open (start stop : Z) :
  (start ≤ stop)%Z →
  ∃ i, DomTBLCoord.interval (DomTBLCoord.init start stop) = Ok i
       ∧ i = PyInterval.init (start - 1) stop
       ∧ PyInterval.length i = stop - start + 1
       ∧ PyInterval.length i
         = Z.of_nat (length (closed_interval_positions start stop)).
Proof.
  intros Hle. exists (PyInterval.init (start - 1) stop).
  split_and!; [done | done | |].
  - unfold PyInterval.length. simpl. lia.
  - unfold PyInterval.length, closed_interval_positions. simpl.
    rewrite length_seqZ. lia.
Qed.

Lemma interval_half_open_witness :
  ∃ i, DomTBLCoord.interval (DomTBLCoord.init 10 50) = Ok i
       ∧ i = PyInterval.init (10 - 1) 50
       ∧ PyInterval.length i = 50 - 10 + 1
       ∧ PyInterval.length i
         = Z.of_nat (length (closed_interval_positions 10 50)).
Proof. apply (interval_half_open 10 50). lia. Defined.

(** C9. Building a coordinate and taking its interval never raises, whatever
    the two integers are, also when start > stop: the result is always
    (start-1, stop). *)
Theorem interval_unchecked (start stop : Z) :
  DomTBLCoord.interval (DomTBLCoord.init start stop)
  = Ok (PyInterval.init (start - 1) stop)
  ∧ ∀ e, DomTBLCoord.interval (DomTBLCoord.init start stop) ≠ Err e.
Proof. split; [reflexivity | discriminate]. Qed.

Example interval_backwards :
  DomTBLCoord.interval (DomTBLCoord.init 60 1) = Ok (PyInterval.init 59 1).
Proof. reflexivity. Qed.

(** The fields of a row can be read by name. *)
Lemma row_fields_by_name (r : DomTBLRow.t) :
  getattr (DomTBLRow.to_value r) "target"
  = Some (DomTBLIndex.to_value (DomTBLRow.target r))
  ∧ getattr (DomTBLRow.to_value r) "acc" = Some (VStr (DomTBLRow.acc r))
  ∧ getattr (DomTBLRow.to_value r) "description"
    = Some (VStr (DomTBLRow.description r)).
Proof. split_and!; reflexivity. Qed.

(** C3 fails on the code. [__iter__] goes through [dataclasses.asdict], and a
    row is an instance of a pydantic model, not of a dataclass: iterating any
    row raises [TypeError] and yields no value. *)
Theorem row_iteration_raises (r : DomTBLRow.t) :
  DomTBLRow.__iter__ r
  = Err (TypeError "asdict() should be called on dataclass instances").
Proof. reflexivity. Qed.

Example scenario_row_iteration :
  parse_row (tokenize scenario_line) ≫= DomTBLRow.__iter__
  = Err (TypeError "asdict() should be called on dataclass instances").
Proof. vm_compute. reflexivity. Qed.

(** C6 fails on the code for streams. Whatever the file system holds,
    [read_domtbl] hands an open stream to [open], which raises [TypeError]:
    no row is read from the stream. *)
Theorem read_domtbl_stream_raises (fs : gmap string fs_node)
    (lines : list string) :
  read_domtbl fs (StreamArg lines)
  = Err (TypeError "expected str, bytes or os.PathLike object, not TextIOWrapper").
Proof. reflexivity. Qed.

(** C7. When the path names no file, or a file that cannot be read, the call
    fails with the access error of [open] ([FileAccessError]), whatever the
    file holds: no row is returned. *)
Theorem read_domtbl_inaccessible (fs : gmap string fs_node) (path : string) :
  fs !! path = None ∨ (∃ lines, fs !! path = Some (RegularFile false lines)) →
  ∃ e, read_domtbl fs (PathArg path) = Err e
       ∧ error_kind e = Some FileAccessError
       ∧ (e = FileNotFoundError path ∨ e = PermissionError path).
Proof.
  unfold read_domtbl, open. intros [-> | [lines ->]]; simpl.
  - exists (FileNotFoundError path). auto.
  - exists (PermissionError path). auto.
Qed.

Lemma read_domtbl_inaccessible_witness :
  ∃ e, read_domtbl (one_file "hits.domtbl" [scenario_line])
         (PathArg "missing.domtbl") = Err e
       ∧ error_kind e = Some FileAccessError
       ∧ (e = FileNotFoundError "missing.domtbl"
          ∨ e = PermissionError "missing.domtbl").
Proof.
  apply (read_domtbl_inaccessible (one_file "hits.domtbl" [scenario_line])
           "missing.domtbl").
  left. vm_compute. reflexivity.
Defined.

Example read_domtbl_unreadable :
  read_domtbl {[ "hits.domtbl" := RegularFile false [scenario_line] ]}
    (PathArg "hits.domtbl")
  = Err (PermissionError "hits.domtbl").
Proof. vm_compute. reflexivity. Qed.

(** C8, as the code has it. Neither model is frozen: assigning to any
    declared field of a row or of an index succeeds, the field then holds
    the assigned value, and every other field holds what it held before. *)
Theorem fields_assignable (r : DomTBLRow.t) (a : DomTBLRow.assign)
    (i : DomTBLIndex.t) (b : DomTBLIndex.assign) :
  (∃ r', DomTBLRow.setattr r a = Ok r'
         ∧ getattr (DomTBLRow.to_value r') (row_assign_field a).1
           = Some (row_assign_field a).2
         ∧ ∀ name, name ≠ (row_assign_field a).1 →
             getattr (DomTBLRow.to_value r') name
             = getattr (DomTBLRow.to_value r) name)
  ∧ (∃ i', DomTBLIndex.setattr i b = Ok i'
           ∧ getattr (DomTBLIndex.to_value i') (index_assign_field b).1
             = Some (index_assign_field b).2
           ∧ ∀ name, name ≠ (index_assign_field b).1 →
               getattr (DomTBLIndex.to_value i') name
               = getattr (DomTBLIndex.to_value i) name).
Proof.
  split.
  - exists (DomTBLRow.update a r). split_and!; [done | by destruct a |].
    intros name Hne. destruct a; simpl in *;
      repeat (case_decide; [congruence || done|]); done.
  - exists (DomTBLIndex.update b i). split_and!; [done | by destruct b |].
    intros name Hne. destruct b; simpl in *;
      repeat (case_decide; [congruence || done|]); done.
Qed.

(** C8 as stated fails: after [row.acc = "0.10"] the row of the scenario has
    another [acc], and after [row.target.length = 7] its target has another
    length. *)
Lemma row_is_mutable :
  (∃ r', DomTBLRow.setattr scenario_row (DomTBLRow.set_acc "0.10") = Ok r'
         ∧ DomTBLRow.acc r' ≠ DomTBLRow.acc scenario_row)
  ∧ (∃ i', DomTBLIndex.setattr (DomTBLRow.target scenario_row)
             (DomTBLIndex.set_length 7) = Ok i'
           ∧ DomTBLIndex.length i'
             ≠ DomTBLIndex.length (DomTBLRow.target scenario_row)).
Proof.
  split; eexists; (split; [reflexivity | simpl; discriminate]).
Qed.

(** ** Further properties of the code *)

Lemma first_bad_int_None x :
  first_bad_int x = None ↔
  ∀ k t, k ∈ int_positions → x !! k = Some t → is_Some (py_int t).
Proof.
  split.
  - intros Hnone k t Hk Hx.
    destruct (py_int t) as [z|] eqn:Ht; [by eexists|].
    destruct (first_bad_int_exists x k t Hk Hx Ht) as [t' Ht']. congruence.
  - intros H. destruct (first_bad_int x) as [t|] eqn:Hbad; [|done].
    apply first_bad_int_position in Hbad as (k & Hk & Hx & Ht).
    destruct (H k t Hk Hx) as [z Hz]. congruence.
Qed.

Lemma int_positions_lt k : k ∈ int_positions → (k < 22)%nat.
Proof.
  intros Hk. apply list_elem_of_In in Hk.
  unfold int_positions in Hk. simpl in Hk. lia.
Qed.

Lemma parses_spec x :
  parses x = true ↔
  (22 ≤ length x)%nat ∧ first_bad_int x = None.
Proof.
  unfold parses. rewrite andb_true_iff, Nat.leb_le, forallb_forall.
  rewrite first_bad_int_None. split.
  - intros [Hlen H]. split; [done|]. intros k t Hk Hx.
    specialize (H k (proj1 (list_elem_of_In _ _) Hk)).
    unfold rejected, tok in H. rewrite Hx in H. simpl in H.
    by destruct (py_int t).
  - intros [Hlen H]. split; [done|]. intros k Hk.
    apply list_elem_of_In in Hk.
    assert (Hx : x !! k = Some (tok x k)).
    { apply lookup_tok. pose proof (int_positions_lt k Hk). lia. }
    destruct (H k _ Hk Hx) as [z Hz]. unfold rejected. by rewrite Hz.
Qed.

Lemma parse_row_Ok_iff (x : list string) (r : DomTBLRow.t) :
  parse_row x = Ok r ↔ parses x = true ∧ r = row_with py_int x.
Proof.
  rewrite parse_row_outcome, parses_spec. unfold parse_outcome.
  destruct (first_bad_int x) as [t|].
  - split; [done | by intros [[_ ?] _]].
  - destruct (Nat.ltb_spec (length x) 22).
    + split; [done | intros [[? _] _]; lia].
    + split; [by intros [= <-] | by intros [_ ->]].
Qed.

Lemma parses_Forall x :
  parses x = true ↔
  (22 ≤ length x)%nat
  ∧ Forall (λ k, is_Some (py_int (tok x k))) int_positions.
Proof.
  unfold parses. rewrite andb_true_iff, Nat.leb_le, forallb_forall, Forall_forall.
  apply and_iff_compat_l. split; intros H k Hk.
  - apply list_elem_of_In, H in Hk. unfold rejected in Hk.
    by destruct (py_int (tok x k)).
  - apply list_elem_of_In, H in Hk as [z Hz]. unfold rejected. by rewrite Hz.
Qed.

(** X1. [parse_row] returns a row exactly for the lines that have at least
    22 tokens and, at each integer position, a token that [int] accepts; the
    row is then the positional one, with the values of [int] at the integer
    positions and the other tokens as they are. *)
Theorem parse_row_success (x : list string) (r : DomTBLRow.t) :
  parse_row x = Ok r ↔
  (22 ≤ length x)%nat
  ∧ Forall (λ k, is_Some (py_int (tok x k))) int_positions
  ∧ r = row_with py_int x.
Proof. rewrite parse_row_Ok_iff, parses_Forall. tauto. Qed.

Lemma parse_row_success_witness :
  parse_row (tokenize line_underscore)
  = Ok (row_with py_int (tokenize line_underscore)).
Proof.
  apply (proj2 (parse_row_success (tokenize line_underscore)
                  (row_with py_int (tokenize line_underscore)))).
  split_and!.
  - apply Nat.leb_le. vm_compute. reflexivity.
  - apply (bool_decide_unpack _). vm_compute. exact I.
  - reflexivity.
Defined.

(** The loop hands over its accumulator: reading [xs] then [ys] is one
    pass over [xs ++ ys]. *)
Lemma read_rows_app rows xs ys :
  read_rows rows (xs ++ ys) = read_rows rows xs ≫= (λ rows', read_rows rows' ys).
Proof.
  revert rows. induction xs as [|x xs IH]; intros rows; simpl; [done|].
  destruct (parse_row x) as [r|e]; simpl; [apply IH | done].
Qed.

Lemma read_rows_parses xs rows :
  forallb parses xs = true →
  read_rows rows xs = Ok (rows ++ (row_with py_int <$> xs)).
Proof.
  intros H. apply read_rows_ok, Forall_forall. intros x Hx.
  apply parse_row_Ok_iff. split; [|done].
  by apply (proj1 (forallb_forall _ _) H), list_elem_of_In.
Qed.

Lemma read_rows_Ok_parses xs rows out :
  read_rows rows xs = Ok out → forallb parses xs = true.
Proof.
  revert rows. induction xs as [|x xs IH]; intros rows; simpl; [done|].
  destruct (parse_row x) as [r|e] eqn:Hx; simpl; [|done].
  intros H. apply parse_row_Ok_iff in Hx as [-> _]. simpl. by eapply IH.
Qed.

(** The exception of the loop is that of the first line that does not
    parse. *)
Lemma read_rows_first_failure pre x post e rows :
  forallb parses pre = true → parse_row x = Err e →
  read_rows rows (pre ++ x :: post) = Err e.
Proof.
  intros Hpre Hx. rewrite read_rows_app, (read_rows_parses pre rows Hpre).
  simpl. by rewrite Hx.
Qed.

Lemma read_rows_Err_split xs rows e :
  read_rows rows xs = Err e →
  ∃ pre x post, xs = pre ++ x :: post ∧ forallb parses pre = true
                ∧ parse_row x = Err e.
Proof.
  revert rows. induction xs as [|x xs IH]; intros rows; simpl; [done|].
  destruct (parse_row x) as [r|e'] eqn:Hx; simpl.
  - intros H. destruct (IH _ H) as (pre & y & post & -> & Hpre & Hy).
    exists (x :: pre), y, post. split_and!; [done | | done].
    simpl. apply parse_row_Ok_iff in Hx as [-> _]. done.
  - intros [= ->]. by exists [], x, xs.
Qed.

Lemma read_domtbl_readable fs path lines :
  fs !! path = Some (RegularFile true lines) →
  read_domtbl fs (PathArg path) = read_rows [] (csv_iter lines).
Proof. intros Hfs. unfold read_domtbl, open. by rewrite Hfs. Qed.






(** X2. All or nothing: for a readable file the call returns rows exactly
    when every line that the iterator yields parses, and the rows are then
    those of the yielded lines, one per line and in their order. *)
Theorem read_domtbl_all_or_nothing (fs : gmap string fs_node) (path : string)
    (lines : list string) (rows : list DomTBLRow.t) :
  fs !! path = Some (RegularFile true lines) →
  read_domtbl fs (PathArg path) = Ok rows ↔
  forallb parses (csv_iter lines) = true
  ∧ rows = row_with py_int <$> csv_iter lines.
Proof.
  intros Hfs. rewrite (read_domtbl_readable fs path lines Hfs). split.
  - intros H. pose proof (read_rows_Ok_parses _ _ _ H) as Hall.
    split; [done|]. rewrite (read_rows_parses _ [] Hall) in H.
    by injection H as <-.
  - intros [Hall ->]. by rewrite (read_rows_parses _ [] Hall).
Qed.

Lemma read_domtbl_all_or_nothing_witness :
  read_domtbl (one_file "hits.domtbl" [line_underscore; ""; line_odd])
    (PathArg "hits.domtbl")
  = Ok (row_with py_int <$> csv_iter [line_underscore; ""; line_odd]).
Proof.
  apply (proj2 (read_domtbl_all_or_nothing
                  (one_file "hits.domtbl" [line_underscore; ""; line_odd])
                  "hits.domtbl" [line_underscore; ""; line_odd] _
                  ltac:(vm_compute; reflexivity))).
  split; [vm_compute; reflexivity | reflexivity].
Defined.

(** X3. The first failure wins: when the lines yielded before [x] all parse
    and [x] raises, the call raises the exception of [x], whatever follows
    [x] in the file, and the rows read so far are lost. *)
Theorem read_domtbl_first_failure (fs : gmap string fs_node) (path : string)
    (lines : list string) (pre post : list (list string)) (x : list string)
    (e : Exception) :
  fs !! path = Some (RegularFile true lines) →
  csv_iter lines = pre ++ x :: post →
  forallb parses pre = true →
  parse_row x = Err e →
  read_domtbl fs (PathArg path) = Err e.
Proof.
  intros Hfs Hsplit Hpre Hx.
  rewrite (read_domtbl_readable fs path lines Hfs), Hsplit.
  by apply read_rows_first_failure.
Qed.

Lemma read_domtbl_first_failure_witness :
  read_domtbl (one_file "hits.domtbl" lines_with_failures) (PathArg "hits.domtbl")
  = Err IndexError.
Proof.
  apply (read_domtbl_first_failure
           (one_file "hits.domtbl" lines_with_failures) "hits.domtbl"
           lines_with_failures [tokenize scenario_line]
           [tokenize line_na_domain_id] (tokenize line_10_tokens)).
  - vm_compute. reflexivity.
  - vm_compute. reflexivity.
  - vm_compute. reflexivity.
  - vm_compute. reflexivity.
Defined.

(** X4. Where an exception comes from: when the call on a readable file
    raises, some yielded line is the first that does not parse and the
    exception is its own. An [IndexError] means that this line has fewer
    than 22 tokens and that [int] accepts those at integer positions; a
    [ValueError] carries a token of this line, at an integer position, that
    [int] rejects; no other exception is raised. *)
Theorem read_domtbl_error_source (fs : gmap string fs_node) (path : string)
    (lines : list string) (e : Exception) :
  fs !! path = Some (RegularFile true lines) →
  read_domtbl fs (PathArg path) = Err e →
  ∃ pre x post,
    csv_iter lines = pre ++ x :: post
    ∧ forallb parses pre = true
    ∧ parse_row x = Err e
    ∧ match e with
      | IndexError => (length x < 22)%nat ∧ first_bad_int x = None
      | ValueError t =>
          ∃ k, k ∈ int_positions ∧ x !! k = Some t ∧ py_int t = None
      | _ => False
      end.
Proof.
  intros Hfs. rewrite (read_domtbl_readable fs path lines Hfs). intros H.
  apply read_rows_Err_split in H as (pre & x & post & Hsplit & Hpre & Hx).
  exists pre, x, post. split_and!; try done.
  revert Hx. rewrite parse_row_outcome. unfold parse_outcome.
  destruct (first_bad_int x) as [t|] eqn:Hbad.
  - intros [= <-]. by apply first_bad_int_position.
  - destruct (Nat.ltb_spec (length x) 22); [|done]. by intros [= <-].
Qed.

Lemma read_domtbl_error_source_witness :
  ∃ pre x post,
    csv_iter [scenario_line; line_na_domain_size] = pre ++ x :: post
    ∧ forallb parses pre = true
    ∧ parse_row x = Err (ValueError "N/A")
    ∧ ∃ k, k ∈ int_positions ∧ x !! k = Some "N/A" ∧ py_int "N/A" = None.
Proof.
  apply (read_domtbl_error_source
           (one_file "hits.domtbl" [scenario_line; line_na_domain_size])
           "hits.domtbl" [scenario_line; line_na_domain_size]
           (ValueError "N/A")).
  - vm_compute. reflexivity.
  - vm_compute. reflexivity.
Defined.

Lemma read_rows_acc rows xs :
  read_rows rows xs = read_rows [] xs ≫= (λ out, Ok (rows ++ out)).
Proof.
  revert rows. induction xs as [|x xs IH]; intros rows; simpl.
  - by rewrite app_nil_r.
  - destruct (parse_row x) as [r|e]; simpl; [|done].
    rewrite (IH (rows ++ [r])), (IH [r]).
    destruct (read_rows [] xs) as [out|e]; simpl; [|done].
    by rewrite <- app_assoc.
Qed.

Lemma csv_iter_app l1 l2 : csv_iter (l1 ++ l2) = csv_iter l1 ++ csv_iter l2.
Proof. unfold csv_iter. by rewrite fmap_app, filter_app. Qed.

(** X5. Reading the concatenation of two files is reading the first, then
    the second, and appending the rows: it fails as the first file does, or
    else as the second does, and returns the rows of both otherwise. *)
Theorem read_domtbl_concat (fs : gmap string fs_node) (p1 p2 p : string)
    (l1 l2 : list string) :
  fs !! p1 = Some (RegularFile true l1) →
  fs !! p2 = Some (RegularFile true l2) →
  fs !! p = Some (RegularFile true (l1 ++ l2)) →
  read_domtbl fs (PathArg p)
  = rows1 ← read_domtbl fs (PathArg p1);
    rows2 ← read_domtbl fs (PathArg p2);
    Ok (rows1 ++ rows2).
Proof.
  intros H1 H2 H.
  rewrite (read_domtbl_readable fs p1 l1 H1), (read_domtbl_readable fs p2 l2 H2),
    (read_domtbl_readable fs p _ H), csv_iter_app, read_rows_app.
  destruct (read_rows [] (csv_iter l1)) as [rows1|e]; simpl; [|done].
  apply read_rows_acc.
Qed.

Lemma read_domtbl_concat_witness :
  read_domtbl files_a_b_both (PathArg "both.domtbl")
  = rows1 ← read_domtbl files_a_b_both (PathArg "a.domtbl");
    rows2 ← read_domtbl files_a_b_both (PathArg "b.domtbl");
    Ok (rows1 ++ rows2).
Proof.
  apply (read_domtbl_concat files_a_b_both "a.domtbl" "b.domtbl" "both.domtbl"
           [scenario_line] [line_odd; line_10_tokens]).
  - vm_compute. reflexivity.
  - vm_compute. reflexivity.
  - vm_compute. reflexivity.
Defined.

(** X6. The tokens after the first 22 reach the description and nothing
    else: appending tokens [ys] to a line of 22 tokens changes neither
    whether the line parses nor its exception, and the row differs only in
    its description, which is [ys] joined by single spaces. *)
Theorem trailing_tokens_description (x ys : list string) :
  length x = 22%nat →
  parse_row (x ++ ys)
  = r ← parse_row x;
    Ok (DomTBLRow.update (DomTBLRow.set_description (join " " ys)) r).
Proof.
  intros Hlen.
  do 22 (next_token x; [done|]).
  destruct x; [|done]. clear Hlen.
  unfold parse_row, int. simpl. repeat case_int.
Qed.

Lemma trailing_tokens_description_witness :
  parse_row (tokenize line_22_tokens ++ ["Example"; "description"; "here"])
  = r ← parse_row (tokenize line_22_tokens);
    Ok (DomTBLRow.update
          (DomTBLRow.set_description (join " " ["Example"; "description"; "here"])) r).
Proof.
  apply (trailing_tokens_description (tokenize line_22_tokens)).
  vm_compute. reflexivity.
Defined.










(** X8. The two helpers of a row that go through [dataclasses] never
    return: for every row [_field_types] raises the [TypeError] of
    [dataclasses.fields] and [_asdict] that of [dataclasses.asdict], since
    the class is a pydantic model and no dataclass. *)
Theorem row_reflection_raises (r : DomTBLRow.t) :
  DomTBLRow._field_types r
  = Err (TypeError "must be called with a dataclass type or instance")
  ∧ DomTBLRow._asdict r
    = Err (TypeError "asdict() should be called on dataclass instances").
Proof. split; reflexivity. Qed.

Lemma lstrip_spaces cs :
  ∃ sp, cs = sp ++ lstrip cs ∧ Forall (λ c, is_c_space c = true) sp.
Proof.
  induction cs as [|c cs (sp & Hcs & Hsp)]; simpl.
  - by exists [].
  - destruct (is_c_space c) eqn:Hc.
    + exists (c :: sp). split; [simpl; by f_equal | by constructor].
    + by exists [].
Qed.

Lemma strip_spaces cs :
  ∃ sp1 sp2, cs = sp1 ++ strip cs ++ sp2
             ∧ Forall (λ c, is_c_space c = true) (sp1 ++ sp2).
Proof.
  destruct (lstrip_spaces cs) as (sp1 & H1 & Hsp1).
  destruct (lstrip_spaces (rev (lstrip cs))) as (sp2 & H2 & Hsp2).
  exists sp1, (rev sp2). split.
  - unfold strip. rewrite <- rev_app_distr, <- H2, rev_involutive. exact H1.
  - apply Forall_app. split; [done | by apply Forall_rev].
Qed.

Lemma digits_value_chars acc prev cs z :
  digits_value acc prev cs = Some z →
  Forall (λ c, is_digit c || is_underscore c = true) cs.
Proof.
  revert acc prev. induction cs as [|c cs IH]; intros acc prev H; [constructor|].
  simpl in H. destruct (is_digit c) eqn:Hd.
  - constructor; [by rewrite Hd | by eapply IH].
  - destruct (is_underscore c) eqn:Hu; [|done].
    destruct prev; simpl in H; [|done].
    constructor; [by rewrite Hd, Hu | by eapply IH].
Qed.

(** The characters of an ASCII literal that [int] reads. *)
Lemma ascii_int_chars l z :
  ascii_int l = Some z → Forall (λ c, int_char c = true) l.
Proof.
  unfold ascii_int. intros H.
  destruct (strip_spaces l) as (sp1 & sp2 & Hl & Hsp). rewrite Hl.
  apply Forall_app in Hsp as [Hsp1 Hsp2].
  assert (Hsp' : ∀ sp, Forall (λ c, is_c_space c = true) sp →
                       Forall (λ c, int_char c = true) sp).
  { intros sp Hs. eapply Forall_impl; [exact Hs|]. intros c Hc.
    unfold int_char. rewrite Hc. by rewrite !orb_true_r. }
  assert (Hdig : ∀ acc prev cs z', digits_value acc prev cs = Some z' →
                                   Forall (λ c, int_char c = true) cs).
  { intros acc prev cs z' Hz. eapply Forall_impl; [by eapply digits_value_chars|].
    intros c Hc. unfold int_char. by rewrite Hc. }
  rewrite !Forall_app. split_and!; [by apply Hsp' | | by apply Hsp'].
  destruct (strip _) as [|c cs]; [constructor|].
  destruct (decide (c = "+"%char)) as [->|Hp];
    [|destruct (decide (c = "-"%char)) as [->|Hm]].
  - constructor; [done | by eapply Hdig].
  - constructor; [done|].
    destruct (digits_value 0 false cs) eqn:Hz; [by eapply Hdig | done].
  - eapply (Hdig 0 false (c :: cs) z).
    revert H. destruct c as [[] [] [] [] [] [] [] []]; try done.
Qed.

(** A code point that [int] brings to a character of a literal is one of
    the code points of a literal. *)
Lemma to_ascii_char_code_point cp c :
  to_ascii_char cp = Some c → int_char c = true → int_code_point cp = true.
Proof.
  unfold to_ascii_char, int_code_point.
  destruct (cp <? 0x80)%N; [by intros [= <-]|].
  destruct (unicode_isspace cp); [done|]. simpl.
  destruct (unicode_decimal cp) as [d|]; [|done]. intros _ _.
  apply bool_decide_eq_true. by eexists.
Qed.

Lemma to_ascii_literal_code_points cps cs :
  to_ascii_literal cps = Some cs →
  Forall (λ c, int_char c = true) cs →
  Forall (λ cp, int_code_point cp = true) cps.
Proof.
  revert cs. induction cps as [|cp cps IH]; intros cs H Hcs; [constructor|].
  simpl in H. destruct (to_ascii_char cp) as [c|] eqn:Hc; [|done]. simpl in H.
  destruct (to_ascii_literal cps) as [cs'|]; [|done].
  injection H as <-. apply Forall_cons in Hcs as [Hc' Hcs'].
  constructor; [by eapply to_ascii_char_code_point | by eapply IH].
Qed.

Lemma py_int_code_points t z :
  py_int t = Some z →
  ∃ cps, utf8_decode (list_ascii_of_string t) = Some cps
         ∧ Forall (λ cp, int_code_point cp = true) cps.
Proof.
  unfold py_int. intros H.
  destruct (utf8_decode (list_ascii_of_string t)) as [cps|]; [|done].
  simpl in H. destruct (to_ascii_literal cps) as [cs|] eqn:Hcs; [|done].
  simpl in H. exists cps. split; [done|].
  eapply to_ascii_literal_code_points; [done|]. by eapply ascii_int_chars.
Qed.

(** X9. A line parses only if each token at an integer position is made of
    decimal digits (of any script), underscores, signs and white space (TAB
    to CR, the space, and the white space outside ASCII): a token with any
    other code point there (a decimal point, a letter, the separators FS to
    US) makes the line fail. *)
Theorem int_tokens_charset (x : list string) (r : DomTBLRow.t) (k : nat) :
  parse_row x = Ok r → k ∈ int_positions →
  ∃ cps, utf8_decode (list_ascii_of_string (tok x k)) = Some cps
         ∧ Forall (λ cp, int_code_point cp = true) cps.
Proof.
  intros Hr Hk. apply parse_row_Ok_iff in Hr as [Hp _].
  apply parses_spec in Hp as [Hlen Hbad].
  assert (Hx : x !! k = Some (tok x k)).
  { apply lookup_tok. pose proof (int_positions_lt k Hk). lia. }
  destruct (proj1 (first_bad_int_None x) Hbad k _ Hk Hx) as [z Hz].
  by eapply py_int_code_points.
Qed.

Lemma int_tokens_charset_witness :
  ∃ cps, utf8_decode (list_ascii_of_string (tok (tokenize line_arabic_indic) 2))
         = Some cps
         ∧ Forall (λ cp, int_code_point cp = true) cps.
Proof.
  apply (int_tokens_charset (tokenize line_arabic_indic)
           (row_with py_int (tokenize line_arabic_indic)) 2).
  - vm_compute. reflexivity.
  - apply list_elem_of_In. vm_compute. tauto.
Defined.

Example arabic_indic_length :
  parse_row (tokenize line_arabic_indic)
  ≫= (λ r, Ok (DomTBLIndex.length (DomTBLRow.target r))) = Ok 12.
Proof. vm_compute. reflexivity. Qed.

(** X10. A score-like token passes through and touches nothing else: when a
    line parses, so does the line with any string [s] at a score position;
    the new row holds the new tokens in its score fields, and its target,
    query, domain id and size, coordinates, accuracy and description are
    those of the old row. *)
Theorem score_token_pass_through (x : list string) (r : DomTBLRow.t)
    (j : nat) (s : string) :
  parse_row x = Ok r → j ∈ score_positions →
  ∃ r', parse_row (<[j:=s]> x) = Ok r'
        ∧ tok (<[j:=s]> x) j = s
        ∧ DomTBLRow.full_sequence r'
          = DomTBLSeqScore.init (tok (<[j:=s]> x) 6) (tok (<[j:=s]> x) 7)
              (tok (<[j:=s]> x) 8)
        ∧ DomTBLRow.domain r'
          = DomTBLDomScore.init
              (DomTBLDomScore.id (DomTBLRow.domain r))
              (DomTBLDomScore.size (DomTBLRow.domain r))
              (tok (<[j:=s]> x) 11) (tok (<[j:=s]> x) 12)
              (tok (<[j:=s]> x) 13) (tok (<[j:=s]> x) 14)
        ∧ DomTBLRow.target r' = DomTBLRow.target r
        ∧ DomTBLRow.query r' = DomTBLRow.query r
        ∧ DomTBLRow.hmm_coord r' = DomTBLRow.hmm_coord r
        ∧ DomTBLRow.ali_coord r' = DomTBLRow.ali_coord r
        ∧ DomTBLRow.env_coord r' = DomTBLRow.env_coord r
        ∧ DomTBLRow.acc r' = DomTBLRow.acc r
        ∧ DomTBLRow.description r' = DomTBLRow.description r.
Proof.
  intros Hr Hj. apply parse_row_Ok_iff in Hr as [Hp ->].
  pose proof (proj1 (parses_spec x) Hp) as [Hlen Hbad].
  exists (row_with py_int (<[j:=s]> x)). split.
  { apply parse_row_Ok_iff. split; [|done]. apply parses_spec.
    by rewrite length_insert, first_bad_int_score. }
  clear Hp Hbad.
  do 22 (next_token x; [simpl in Hlen; lia|]). clear Hlen.
  apply list_elem_of_In in Hj. unfold score_positions in Hj. simpl in Hj.
  destruct Hj as [<-|[<-|[<-|[<-|[<-|[<-|[<-|[]]]]]]]];
    split_and!; reflexivity.
Qed.

Lemma score_token_pass_through_witness :
  ∃ r', parse_row (<[7%nat:="-"]> (tokenize scenario_line)) = Ok r'
        ∧ DomTBLRow.full_sequence r' = DomTBLSeqScore.init "1e-10" "-" "0.5"
        ∧ DomTBLRow.target r' = DomTBLRow.target scenario_row.
Proof.
  destruct (score_token_pass_through (tokenize scenario_line) scenario_row
              7 "-") as (r' & Hr' & _ & Hseq & _ & Ht & _).
  - vm_compute. reflexivity.
  - apply list_elem_of_In. vm_compute. tauto.
  - exists r'. split_and!; [exact Hr' | exact Hseq | exact Ht].
Defined.
